(** * Inventory store: a shallow embedding of [inventory_system.py]

    The module keeps one process-wide dictionary [stock_data] from item
    names to integer quantities, with operations that add, remove, query,
    filter, save and load.  The embedding follows the Python source
    function by function:

    - a Python [dict] is an association list in insertion order (the order
      is observable through [check_low_items] and [print_data]);
    - an argument is a Python value [pyval], so that the [isinstance]
      guards of the source have something to reject;
    - the functions run in a state-and-exception monad over a [world]
      holding [stock_data], the file system, the log and the clock. *)

From Stdlib Require Import ZArith List String Ascii Bool Lia.
From Stdlib Require Import DecimalString DecimalZ.
Import ListNotations.
Local Set Warnings "-register-all".
Local Open Scope string_scope.
Local Open Scope Z_scope.

(** ** Python dictionaries with [str] keys *)

Module Dict.

Definition dict (V : Type) : Type := list (string * V).

Section Ops.
Context {V : Type}.

Definition empty : dict V := [].

(** [d.get(k)] *)
Fixpoint get (d : dict V) (k : string) : option V :=
  match d with
  | [] => None
  | (k', v) :: d' => if String.eqb k k' then Some v else get d' k
  end.

(** [d.get(k, default)] *)
Definition get_default (d : dict V) (k : string) (default : V) : V :=
  match get d k with
  | Some v => v
  | None => default
  end.

(** [k in d] *)
Definition contains (d : dict V) (k : string) : bool :=
  match get d k with
  | Some _ => true
  | None => false
  end.

(** [d[k] = v]: an existing key keeps its position, a new key goes last. *)
Fixpoint set (d : dict V) (k : string) (v : V) : dict V :=
  match d with
  | [] => [(k, v)]
  | (k', v') :: d' =>
      if String.eqb k k' then (k', v) :: d' else (k', v') :: set d' k v
  end.

(** [del d[k]] (for a key that is present) *)
Definition del (d : dict V) (k : string) : dict V :=
  filter (fun kv => negb (String.eqb k (fst kv))) d.

(** [d.keys()], [d.items()] is the list itself. *)
Definition keys (d : dict V) : list string := map fst d.

(** [d.update(other)] *)
Definition update (d other : dict V) : dict V :=
  fold_left (fun acc kv => set acc (fst kv) (snd kv)) other d.

(** The representation invariant of a dictionary: no key occurs twice. *)
Definition wf (d : dict V) : Prop := NoDup (keys d).

End Ops.

End Dict.

Import Dict.

(** ** Python values *)

(** A [float] is not-a-number, an infinity, or the finite dyadic number
    [m * 2^e]. *)
Inductive pyfloat : Type :=
| FNaN
| FInf (negative : bool)
| FFinite (m e : Z).

Inductive exn : Type :=
| FileNotFoundError
| PermissionError
| JSONDecodeError
| UnicodeDecodeError
| ValueError
| TypeError
| OverflowError
| KeyError.

Inductive pyval : Type :=
| PNone
| PBool (b : bool)
| PInt (z : Z)
| PFloat (f : pyfloat)
| PStr (s : string)
| PList (l : list pyval)
| PDict (d : list (string * pyval))
| PExc (e : exn).

(** [issubclass(e, OSError)] and [issubclass(e, ValueError)] *)
Definition is_OSError (e : exn) : bool :=
  match e with
  | FileNotFoundError | PermissionError => true
  | _ => false
  end.

Definition is_ValueError (e : exn) : bool :=
  match e with
  | JSONDecodeError | UnicodeDecodeError | ValueError => true
  | _ => false
  end.

(** [isinstance(v, str)] *)
Definition isinstance_str (v : pyval) : bool :=
  match v with
  | PStr _ => true
  | _ => false
  end.

(** [isinstance(v, int)]; [bool] is a subclass of [int]. *)
Definition isinstance_int (v : pyval) : bool :=
  match v with
  | PInt _ | PBool _ => true
  | _ => false
  end.

(** The integer an instance of [int] stands for in arithmetic and
    comparisons ([True] is 1, [False] is 0). *)
Definition int_value (v : pyval) : option Z :=
  match v with
  | PInt z => Some z
  | PBool b => Some (Z.b2z b)
  | _ => None
  end.

Definition str_value (v : pyval) : option string :=
  match v with
  | PStr s => Some s
  | _ => None
  end.

(** *** [int(...)] *)

(** [int(f)] for a finite float truncates toward zero. *)
Definition float_trunc (m e : Z) : Z :=
  if 0 <=? e then m * 2 ^ e else Z.quot m (2 ^ (- e)).

Definition is_space (c : ascii) : bool :=
  let n := N_of_ascii c in
  ((9 <=? n) && (n <=? 13) || (28 <=? n) && (n <=? 32)
   || (n =? 133) || (n =? 160))%N.

Definition is_digit (c : ascii) : bool :=
  let n := N_of_ascii c in ((48 <=? n) && (n <=? 57))%N.

Definition digit_value (c : ascii) : Z := Z.of_N (N_of_ascii c) - 48.

Fixpoint lstrip (l : list ascii) : list ascii :=
  match l with
  | c :: l' => if is_space c then lstrip l' else l
  | [] => []
  end.

Definition strip (l : list ascii) : list ascii :=
  rev (lstrip (rev (lstrip l))).

(** Decimal digits, with single underscores allowed between digits. *)
Fixpoint digits_value (acc : Z) (after_digit : bool) (l : list ascii)
  : option Z :=
  match l with
  | [] => if after_digit then Some acc else None
  | c :: l' =>
      if is_digit c then digits_value (10 * acc + digit_value c) true l'
      else if Ascii.eqb c "_"
           then if after_digit then digits_value acc false l' else None
           else None
  end.

(** [int(s)] for a [str]: surrounding white space, an optional sign and
    decimal digits; [None] is a [ValueError]. *)
Definition int_of_str (s : string) : option Z :=
  match strip (list_ascii_of_string s) with
  | "-"%char :: l => option_map Z.opp (digits_value 0 false l)
  | "+"%char :: l => digits_value 0 false l
  | l => digits_value 0 false l
  end.

Definition py_int (v : pyval) : exn + Z :=
  match v with
  | PNone => inl TypeError
  | PBool b => inr (Z.b2z b)
  | PInt z => inr z
  | PFloat FNaN => inl ValueError
  | PFloat (FInf _) => inl OverflowError
  | PFloat (FFinite m e) => inr (float_trunc m e)
  | PStr s =>
      match int_of_str s with
      | Some z => inr z
      | None => inl ValueError
      end
  | PList _ => inl TypeError
  | PDict _ => inl TypeError
  | PExc _ => inl TypeError
  end.

(** *** [str(...)] as the f-string of [add_item] uses it *)

Definition str_of_int (z : Z) : string :=
  NilZero.string_of_int (Z.to_int z).

(** [f"{qty}"] for an instance of [int] whose integer value is [n]. *)
Definition str_of_qty (qty : pyval) (n : Z) : string :=
  match qty with
  | PBool true => "True"
  | PBool false => "False"
  | _ => str_of_int n
  end.

(** ** The world: module state, files, log and clock *)

(** A JSON document.  A number is kept as the Python number it reads as:
    an [int] when it has no fraction or exponent, a [float] otherwise
    (Python's decoder also reads [NaN] and [Infinity]).  The members of an
    object are kept as written, repeated names included. *)
Inductive json : Type :=
| JNull
| JBool (b : bool)
| JInt (z : Z)
| JFloat (f : pyfloat)
| JString (s : string)
| JArray (l : list json)
| JObject (members : list (string * json)).

(** What a file holds, as [json.load] sees it. *)
Inductive content : Type :=
| NotUtf8               (* bytes that do not decode: [UnicodeDecodeError] *)
| NotJson               (* text that is not JSON: [JSONDecodeError] *)
| Json (j : json).      (* a JSON text *)

(** What a path names. *)
Inductive node : Type :=
| Missing               (* no such file; opening for writing creates it *)
| Locked                (* a directory or a protected file: [open] fails *)
| File (c : content).

(** [logging.exception] logs at level [ERROR]. *)
Inductive level : Type := INFO | WARNING | ERROR.

(** A call of [logging.<level>(fmt, *args)]. *)
Record record : Type := Log { lvl : level; fmt : string; args : list pyval }.

Record world : Type := World {
  stock_data : dict Z;
  files : string -> node;
  log : list record;
  now : string                    (* what [datetime.now()] prints as *)
}.

Definition with_stock (w : world) (d : dict Z) : world :=
  World d (files w) (log w) (now w).

Definition with_file (w : world) (name : string) (n : node) : world :=
  World (stock_data w)
        (fun p => if String.eqb p name then n else files w p)
        (log w) (now w).

Definition with_log (w : world) (r : record) : world :=
  World (stock_data w) (files w) (log w ++ [r]) (now w).

(** ** A state-and-exception monad *)

Inductive outcome (A : Type) : Type :=
| Return (a : A)
| Raise (e : exn).
Arguments Return {A} a.
Arguments Raise {A} e.

Definition M (A : Type) : Type := world -> outcome A * world.

Definition ret {A} (a : A) : M A := fun w => (Return a, w).

Definition raise {A} (e : exn) : M A := fun w => (Raise e, w).

Definition bind {A B} (m : M A) (k : A -> M B) : M B :=
  fun w =>
    match m w with
    | (Return a, w') => k a w'
    | (Raise e, w') => (Raise e, w')
    end.

(** [try: m except <the classes h accepts>: h e] *)
Definition try_except {A} (m : M A) (h : exn -> option (M A)) : M A :=
  fun w =>
    match m w with
    | (Return a, w') => (Return a, w')
    | (Raise e, w') =>
        match h e with
        | Some k => k w'
        | None => (Raise e, w')
        end
    end.

Declare Scope py_scope.
Delimit Scope py_scope with py.
Notation "x <- m ;; k" := (bind m (fun x => k))
  (at level 61, m at next level, right associativity) : py_scope.
Notation "m ;; k" := (bind m (fun _ => k))
  (at level 61, right associativity) : py_scope.
Local Open Scope py_scope.

Definition get_stock : M (dict Z) := fun w => (Return (stock_data w), w).
Definition put_stock (d : dict Z) : M unit :=
  fun w => (Return tt, with_stock w d).

Definition logging (l : level) (f : string) (a : list pyval) : M unit :=
  fun w => (Return tt, with_log w (Log l f a)).

Definition datetime_now : M string := fun w => (Return (now w), w).

(** [stock_data[item]]: a [KeyError] when the key is absent. *)
Definition stock_getitem (item : string) : M Z :=
  d <- get_stock ;;
  match get d item with
  | Some v => ret v
  | None => raise KeyError
  end.

(** [stock_data[item] = v] *)
Definition stock_setitem (item : string) (v : Z) : M unit :=
  d <- get_stock ;; put_stock (set d item v).

(** [del stock_data[item]] *)
Definition stock_delitem (item : string) : M unit :=
  d <- get_stock ;;
  if contains d item then put_stock (del d item) else raise KeyError.

(** The Python value a JSON document decodes to: an object becomes a
    [dict] filled member by member (a repeated name keeps its first place
    and its last value), an array a [list]. *)
Fixpoint decode (j : json) : pyval :=
  match j with
  | JNull => PNone
  | JBool b => PBool b
  | JInt z => PInt z
  | JFloat f => PFloat f
  | JString s => PStr s
  | JArray l => PList (map decode l)
  | JObject members =>
      PDict (update empty
               (map (fun m => match m with (k, v) => (k, decode v) end)
                    members))
  end.

(** [open(file_name, "r")] followed by [json.load]. *)
Definition json_load (file_name : string) : M pyval :=
  fun w =>
    match files w file_name with
    | Missing => (Raise FileNotFoundError, w)
    | Locked => (Raise PermissionError, w)
    | File NotUtf8 => (Raise UnicodeDecodeError, w)
    | File NotJson => (Raise JSONDecodeError, w)
    | File (Json j) => (Return (decode j), w)
    end.

(** The document [json.dump] writes for a dictionary of integers: an
    object with one member for each item, in order. *)
Definition json_of_stock (d : dict Z) : json :=
  JObject (map (fun kv => (fst kv, JInt (snd kv))) d).

(** [open(file_name, "w")] followed by [json.dump(d, file, indent=2)]. *)
Definition json_dump (d : dict Z) (file_name : string) : M unit :=
  fun w =>
    match files w file_name with
    | Locked => (Raise PermissionError, w)
    | _ => (Return tt, with_file w file_name (File (Json (json_of_stock d))))
    end.

(** ** The functions of [inventory_system.py] *)

(** [if logs is None: logs = []] *)
Definition given (logs : option (list string)) : list string :=
  match logs with
  | None => []
  | Some l => l
  end.

(** [add_item(item, qty=0, logs=None)].  The caller's list [logs] is
    mutated in place by the source; here the list is passed in and its
    final contents are returned ([None] stands for the fresh list the
    source makes when no list is given).  A call that leaves [qty] out is
    [add_item item (PInt 0) None]. *)
Definition add_item (item qty : pyval) (logs : option (list string))
  : M (list string) :=
  let logs := given logs in
  match str_value item with
  | None =>                             (* not isinstance(item, str) *)
      logging ERROR "add_item: item must be a string, got %r" [item] ;;
      ret logs
  | Some name =>
      match int_value qty with
      | None =>                         (* not isinstance(qty, int) *)
          logging ERROR "add_item: qty must be an int, got %r" [qty] ;;
          ret logs
      | Some n =>
          d <- get_stock ;;
          stock_setitem name (get_default d name 0 + n) ;;
          t <- datetime_now ;;
          let entry := t ++ ": Added " ++ str_of_qty qty n ++ " of " ++ name in
          let logs := List.app logs [entry] in
          v <- stock_getitem name ;;
          logging INFO "Added %d of %s. New qty: %d" [qty; item; PInt v] ;;
          ret logs
      end
  end.

(** [remove_item(item, qty)] *)
Definition remove_item (item qty : pyval) : M unit :=
  match str_value item with
  | None =>                             (* not isinstance(item, str) *)
      logging ERROR "remove_item: item must be a string, got %r" [item]
  | Some name =>
      match int_value qty with
      | None =>                         (* not isinstance(qty, int) *)
          logging ERROR "remove_item: qty must be an int, got %r" [qty]
      | Some n =>
          try_except
            (d <- get_stock ;;
             if negb (contains d name)
             then logging WARNING "remove_item: item '%s' not found." [item]
             else
               v <- stock_getitem name ;;
               stock_setitem name (v - n) ;;
               v' <- stock_getitem name ;;
               if v' <=? 0
               then
                 stock_delitem name ;;
                 logging INFO "remove_item: item '%s' removed from inventory."
                         [item]
               else
                 v'' <- stock_getitem name ;;
                 logging INFO "remove_item: decreased '%s' by %d. New qty: %d"
                         [item; qty; PInt v''])
            (fun e =>
               match e with
               | KeyError =>
                   Some (logging ERROR
                           "Unexpected KeyError while removing item: %s"
                           [PExc e])
               | _ => None
               end)
      end
  end.

(** [get_qty(item)] *)
Definition get_qty (item : pyval) : M Z :=
  match str_value item with
  | None =>                             (* not isinstance(item, str) *)
      logging ERROR "get_qty: item must be a string, got %r" [item] ;;
      ret 0
  | Some name => d <- get_stock ;; ret (get_default d name 0)
  end.

(** [str(k)] of a key that [json.load] produced, which is a [str]. *)
Definition str_of_key (k : string) : string := k.

(** [{str(k): int(v) for k, v in items}], built entry by entry. *)
Fixpoint dict_comprehension (items : list (string * pyval)) (acc : dict Z)
  : M (dict Z) :=
  match items with
  | [] => ret acc
  | (k, v) :: rest =>
      match py_int v with
      | inl e => raise e
      | inr z => dict_comprehension rest (set acc (str_of_key k) z)
      end
  end.

(** [load_data(file_name="inventory.json")] *)
Definition load_data (file_name : string) : M (dict Z) :=
  try_except
    (data <- json_load file_name ;;
     match data with
     | PDict items => dict_comprehension items empty
     | _ =>                             (* not isinstance(data, dict) *)
         logging WARNING
           "load_data: file did not contain a dict; resetting stock_data." [] ;;
         ret empty
     end)
    (fun e =>
       match e with
       | FileNotFoundError =>
           Some (logging INFO
                   "load_data: %s not found. Starting with empty inventory."
                   [PStr file_name] ;;
                 ret empty)
       | _ =>
           if is_ValueError e
           then Some (logging ERROR
                        "load_data: failed to decode JSON (%s). Resetting inventory."
                        [PExc e] ;;
                      ret empty)
           else None
       end).

(** [save_data(file_name="inventory.json")] *)
Definition save_data (file_name : string) : M unit :=
  try_except
    (d <- get_stock ;;
     json_dump d file_name ;;
     logging INFO "Saved inventory to %s." [PStr file_name])
    (fun e =>
       if is_OSError e
       then Some (logging ERROR "save_data: failed to write to %s: %s"
                          [PStr file_name; PExc e])
       else None).

Fixpoint for_each {A} (l : list A) (body : A -> M unit) : M unit :=
  match l with
  | [] => ret tt
  | a :: l' => body a ;; for_each l' body
  end.

(** [print_data()] *)
Definition print_data : M unit :=
  logging INFO "Items Report" [] ;;
  d <- get_stock ;;
  for_each d (fun kv => logging INFO "%s -> %d" [PStr (fst kv); PInt (snd kv)]).

(** [check_low_items(threshold=5)] *)
Definition check_low_items (threshold : pyval) : M (list string) :=
  match int_value threshold with
  | None =>                             (* not isinstance(threshold, int) *)
      logging ERROR "check_low_items: threshold must be int, got %r"
              [threshold] ;;
      ret []
  | Some t =>
      d <- get_stock ;;
      ret (map fst (filter (fun kv => snd kv <? t) d))
  end.

Definition default_file : string := "inventory.json".
Definition default_threshold : pyval := PInt 5.

(** [main()] *)
Definition main : M unit :=
  add_item (PStr "apple") (PInt 10) None ;;
  add_item (PStr "banana") (PInt 2) None ;;
  add_item (PStr "pear") (PInt 0) None ;;
  remove_item (PStr "apple") (PInt 3) ;;
  remove_item (PStr "orange") (PInt 1) ;;
  q <- get_qty (PStr "apple") ;;
  logging INFO "Apple stock: %d" [PInt q] ;;
  low <- check_low_items default_threshold ;;
  logging INFO "Low items: %s" [PList (map PStr low)] ;;
  save_data default_file ;;
  data <- load_data default_file ;;
  put_stock empty ;;
  d <- get_stock ;;
  put_stock (update d data) ;;
  print_data.

(** The state of a process at its start: an empty inventory. *)
Definition initial (fs : string -> node) (clock : string) : world :=
  World empty fs [] clock.

Definition no_files : string -> node := fun _ => Missing.

(** ** Call sequences *)

(** A call of one of the four operations on the in-memory inventory, with
    arbitrary Python values as arguments. *)
Inductive call : Type :=
| AddItem (item qty : pyval) (logs : option (list string))
| RemoveItem (item qty : pyval)
| GetQty (item : pyval)
| CheckLowItems (threshold : pyval).

(** A call with the value it hands back to its caller. *)
Definition run_call (c : call) : M pyval :=
  match c with
  | AddItem item qty logs => add_item item qty logs ;; ret PNone
  | RemoveItem item qty => remove_item item qty ;; ret PNone
  | GetQty item => q <- get_qty item ;; ret (PInt q)
  | CheckLowItems threshold =>
      low <- check_low_items threshold ;; ret (PList (map PStr low))
  end.

Fixpoint run_calls (cs : list call) : M unit :=
  match cs with
  | [] => ret tt
  | c :: cs' => run_call c ;; run_calls cs'
  end.

(** The arguments of a call fail an [isinstance] guard of its function. *)
Definition ill_typed (c : call) : bool :=
  match c with
  | AddItem item qty _ | RemoveItem item qty =>
      negb (isinstance_str item) || negb (isinstance_int qty)
  | GetQty item => negb (isinstance_str item)
  | CheckLowItems threshold => negb (isinstance_int threshold)
  end.


(** A call is not an [add_item] that passes the guards with a quantity of
    zero or less. *)
Definition adds_positive (c : call) : bool :=
  match c with
  | AddItem item qty _ =>
      match str_value item, int_value qty with
      | Some _, Some n => 0 <? n
      | _, _ => true
      end
  | _ => true
  end.

(** Every item present has a stored quantity above zero. *)
Definition stock_positive (d : dict Z) : bool :=
  forallb (fun kv => 0 <? snd kv) d.

(** [add_item(item, q)] for each [q] of a list, in order. *)
Fixpoint add_items (item : string) (qs : list Z) : M unit :=
  match qs with
  | [] => ret tt
  | q :: qs' => add_item (PStr item) (PInt q) None ;; add_items item qs'
  end.

Definition sum (qs : list Z) : Z := fold_right Z.add 0 qs.

(** The first five calls of [main], then the two queries. *)
Definition scenario : M (Z * list string) :=
  add_item (PStr "apple") (PInt 10) None ;;
  add_item (PStr "banana") (PInt 2) None ;;
  add_item (PStr "pear") (PInt 0) None ;;
  remove_item (PStr "apple") (PInt 3) ;;
  remove_item (PStr "orange") (PInt 1) ;;
  q <- get_qty (PStr "apple") ;;
  low <- check_low_items (PInt 5) ;;
  ret (q, low).

(** Two dictionaries compare equal in Python when they hold the same
    entries, in whatever order. *)
Definition dict_eq (d1 d2 : dict Z) : Prop :=
  forall k, get d1 k = get d2 k.


(** The entry [add_item] appends to [logs]. *)
Definition added_entry (w : world) (name : string) (qty : pyval) (n : Z)
  : string :=
  (now w ++ ": Added " ++ str_of_qty qty n ++ " of " ++ name)%string.

(** ** Sample states *)

(** A fresh process whose every path names a file holding the JSON
    document [j]. *)
Definition holding (j : json) : world :=
  initial (fun _ => File (Json j)) "".

Definition sample_world : world :=
  World [("apple", 7); ("banana", 2); ("pear", 0)] no_files [] "".

Definition sample_calls : list call :=
  [AddItem (PStr "apple") (PInt 10) None;
   AddItem (PInt 3) (PInt 0) None;
   AddItem (PStr "banana") (PBool true) None;
   RemoveItem (PStr "apple") (PInt 3);
   GetQty (PStr "apple");
   CheckLowItems (PInt 5);
   RemoveItem (PStr "banana") (PInt 7)].

(** ** Notions for the properties of the whole module *)

(** A call is not an [add_item] that passes the guards with a quantity
    below zero (the docstring of [add_item]: "can be 0 or positive"). *)
Definition adds_nonneg (c : call) : bool :=
  match c with
  | AddItem item qty _ =>
      match str_value item, int_value qty with
      | Some _, Some n => 0 <=? n
      | _, _ => true
      end
  | _ => true
  end.

(** No item is stored with a quantity below zero. *)
Definition stock_nonneg (d : dict Z) : bool :=
  forallb (fun kv => 0 <=? snd kv) d.



Definition is_error (r : record) : bool :=
  match lvl r with
  | ERROR => true
  | _ => false
  end.

(** The lines [print_data] logs for a mapping. *)
Definition items_report (d : dict Z) : list record :=
  Log INFO "Items Report" []
  :: map (fun kv => Log INFO "%s -> %d" [PStr (fst kv); PInt (snd kv)]) d.




(** * Properties *)

(** ** Dictionaries *)

Section DictFacts.
Context {V : Type}.
Implicit Types (d : dict V) (k : string) (v : V).

Lemma get_set_same d k v : get (set d k v) k = Some v.
Proof.
  induction d as [|[k' v'] d IH]; simpl.
  - now rewrite String.eqb_refl.
  - destruct (String.eqb k k') eqn:E; simpl; rewrite E; auto.
Qed.

Lemma get_set_other d k k' v : k <> k' -> get (set d k v) k' = get d k'.
Proof.
  intros Hne. induction d as [|[k0 v0] d IH]; simpl.
  - destruct (String.eqb k' k) eqn:E; auto.
    apply String.eqb_eq in E. congruence.
  - destruct (String.eqb k k0) eqn:E; simpl.
    + apply String.eqb_eq in E. subst k0.
      destruct (String.eqb k' k) eqn:E'; auto.
      apply String.eqb_eq in E'. congruence.
    + now rewrite IH.
Qed.

Lemma get_del_same d k : get (del d k) k = None.
Proof.
  induction d as [|[k' v'] d IH]; simpl; auto.
  destruct (String.eqb k k') eqn:E; simpl; auto.
  now rewrite E.
Qed.

Lemma get_del_other d k k' : k <> k' -> get (del d k) k' = get d k'.
Proof.
  intros Hne. induction d as [|[k0 v0] d IH]; simpl; auto.
  destruct (String.eqb k k0) eqn:E; simpl.
  - apply String.eqb_eq in E. subst k0.
    destruct (String.eqb k' k) eqn:E'; auto.
    apply String.eqb_eq in E'. congruence.
  - now rewrite IH.
Qed.

Lemma del_set d k v : del (set d k v) k = del d k.
Proof.
  induction d as [|[k' v'] d IH]; simpl.
  - now rewrite String.eqb_refl.
  - destruct (String.eqb k k') eqn:E; simpl; rewrite E; simpl; auto.
    now rewrite IH.
Qed.

Lemma contains_get d k : contains d k = true <-> exists v, get d k = Some v.
Proof.
  unfold contains. destruct (get d k); split; intros H; eauto.
  - discriminate.
  - now destruct H.
Qed.

Lemma get_none_not_in d k : get d k = None <-> ~ In k (keys d).
Proof.
  induction d as [|[k' v'] d IH]; simpl.
  - tauto.
  - destruct (String.eqb k k') eqn:E.
    + apply String.eqb_eq in E. subst. split; [discriminate | tauto].
    + apply String.eqb_neq in E. rewrite IH. split; intros H; [|tauto].
      intros [H1|H1]; [congruence | tauto].
Qed.

Lemma get_in d k v : get d k = Some v -> In (k, v) d.
Proof.
  induction d as [|[k' v'] d IH]; simpl; [discriminate|].
  destruct (String.eqb k k') eqn:E.
  - apply String.eqb_eq in E. intros [= ->]. subst. now left.
  - auto.
Qed.


(** A key that is absent is inserted at the end. *)
Lemma set_absent d k v : get d k = None -> set d k v = (d ++ [(k, v)])%list.
Proof.
  induction d as [|[k' v'] d IH]; simpl; auto.
  destruct (String.eqb k k') eqn:E; [discriminate|].
  intros H. now rewrite IH.
Qed.

(** A key that is present keeps its place. *)
Lemma keys_set_present d k v : contains d k = true -> keys (set d k v) = keys d.
Proof.
  unfold contains. induction d as [|[k' v'] d IH]; simpl; [discriminate|].
  destruct (String.eqb k k') eqn:E; simpl; auto.
  intros H. now rewrite IH.
Qed.

Lemma wf_set d k v : wf d -> wf (set d k v).
Proof.
  intros Hwf. destruct (get d k) eqn:G.
  - unfold wf. rewrite keys_set_present; auto.
    unfold contains. now rewrite G.
  - rewrite set_absent by assumption.
    unfold wf, keys in *. rewrite map_app. simpl.
    apply NoDup_app; auto.
    + constructor; [simpl; tauto | constructor].
    + intros x Hx [<-|[]]. now apply get_none_not_in in G.
Qed.

Lemma wf_del d k : wf d -> wf (del d k).
Proof.
  unfold wf, del, keys. induction d as [|[k' v'] d IH]; simpl; auto.
  intros Hnd. inversion Hnd as [|? ? Hni Hnd']; subst.
  destruct (String.eqb k k'); simpl; auto.
  constructor; auto.
  intros Hin. apply Hni. apply in_map_iff in Hin as [[k0 v0] [<- Hin]].
  apply filter_In in Hin as [Hin _].
  change (In (fst (k0, v0)) (map fst d)). now apply in_map.
Qed.


End DictFacts.

(** ** What each function does to the world *)

Ltac unfold_monad :=
  cbv beta iota delta
    [bind ret raise try_except get_stock put_stock logging datetime_now
     stock_getitem stock_setitem stock_delitem];
  cbn [stock_data files log now with_stock with_log with_file fst snd].

Lemma add_item_accepts w item qty logs name n :
  str_value item = Some name -> int_value qty = Some n ->
  let v := get_default (stock_data w) name 0 + n in
  add_item item qty logs w =
  (Return (List.app (given logs) [added_entry w name qty n]),
   with_log (with_stock w (set (stock_data w) name v))
            (Log INFO "Added %d of %s. New qty: %d" [qty; item; PInt v])).
Proof.
  intros Hs Hi v. unfold add_item. rewrite Hs, Hi. unfold_monad.
  rewrite get_set_same. reflexivity.
Qed.

Lemma add_item_rejects_item w item qty logs :
  str_value item = None ->
  add_item item qty logs w =
  (Return (given logs),
   with_log w (Log ERROR "add_item: item must be a string, got %r" [item])).
Proof. intros Hs. unfold add_item. now rewrite Hs. Qed.

Lemma add_item_rejects_qty w item qty logs name :
  str_value item = Some name -> int_value qty = None ->
  add_item item qty logs w =
  (Return (given logs),
   with_log w (Log ERROR "add_item: qty must be an int, got %r" [qty])).
Proof. intros Hs Hi. unfold add_item. now rewrite Hs, Hi. Qed.

Lemma remove_item_absent w item qty name n :
  str_value item = Some name -> int_value qty = Some n ->
  get (stock_data w) name = None ->
  remove_item item qty w =
  (Return tt, with_log w (Log WARNING "remove_item: item '%s' not found." [item])).
Proof.
  intros Hs Hi G. unfold remove_item. rewrite Hs, Hi. unfold_monad.
  unfold contains. now rewrite G.
Qed.

Lemma remove_item_deletes w item qty name n q :
  str_value item = Some name -> int_value qty = Some n ->
  get (stock_data w) name = Some q -> q - n <= 0 ->
  remove_item item qty w =
  (Return tt,
   with_log (with_stock w (del (stock_data w) name))
            (Log INFO "remove_item: item '%s' removed from inventory." [item])).
Proof.
  intros Hs Hi G Hle. unfold remove_item. rewrite Hs, Hi. unfold_monad.
  unfold contains. rewrite G. cbn. rewrite G, get_set_same.
  apply Z.leb_le in Hle. rewrite Hle. cbn. rewrite get_set_same.
  now rewrite <- (del_set (stock_data w) name (q - n)).
Qed.

Lemma remove_item_decreases w item qty name n q :
  str_value item = Some name -> int_value qty = Some n ->
  get (stock_data w) name = Some q -> 0 < q - n ->
  remove_item item qty w =
  (Return tt,
   with_log (with_stock w (set (stock_data w) name (q - n)))
            (Log INFO "remove_item: decreased '%s' by %d. New qty: %d"
                 [item; qty; PInt (q - n)])).
Proof.
  intros Hs Hi G Hlt. unfold remove_item. rewrite Hs, Hi. unfold_monad.
  unfold contains. rewrite G. cbn. rewrite G, get_set_same.
  apply Z.leb_gt in Hlt. rewrite Hlt. cbn. now rewrite get_set_same.
Qed.

Lemma remove_item_rejects_item w item qty :
  str_value item = None ->
  remove_item item qty w =
  (Return tt,
   with_log w (Log ERROR "remove_item: item must be a string, got %r" [item])).
Proof. intros Hs. unfold remove_item. now rewrite Hs. Qed.

Lemma remove_item_rejects_qty w item qty name :
  str_value item = Some name -> int_value qty = None ->
  remove_item item qty w =
  (Return tt,
   with_log w (Log ERROR "remove_item: qty must be an int, got %r" [qty])).
Proof. intros Hs Hi. unfold remove_item. now rewrite Hs, Hi. Qed.

Lemma get_qty_accepts w item name :
  str_value item = Some name ->
  get_qty item w = (Return (get_default (stock_data w) name 0), w).
Proof. intros Hs. unfold get_qty. now rewrite Hs. Qed.

Lemma get_qty_rejects w item :
  str_value item = None ->
  get_qty item w =
  (Return 0, with_log w (Log ERROR "get_qty: item must be a string, got %r" [item])).
Proof. intros Hs. unfold get_qty. now rewrite Hs. Qed.

Lemma check_low_items_accepts w threshold t :
  int_value threshold = Some t ->
  check_low_items threshold w =
  (Return (map fst (filter (fun kv => snd kv <? t) (stock_data w))), w).
Proof. intros Hi. unfold check_low_items. now rewrite Hi. Qed.

Lemma check_low_items_rejects w threshold :
  int_value threshold = None ->
  check_low_items threshold w =
  (Return [],
   with_log w (Log ERROR "check_low_items: threshold must be int, got %r"
                   [threshold])).
Proof. intros Hi. unfold check_low_items. now rewrite Hi. Qed.

Lemma save_data_writes (w : world) (file_name : string) :
  files w file_name <> Locked ->
  save_data file_name w =
  (Return tt,
   with_log (with_file w file_name (File (Json (json_of_stock (stock_data w)))))
            (Log INFO "Saved inventory to %s." [PStr file_name])).
Proof.
  intros Hw. unfold save_data, json_dump. unfold_monad.
  destruct (files w file_name); try reflexivity. congruence.
Qed.

Lemma save_data_fails (w : world) (file_name : string) :
  files w file_name = Locked ->
  save_data file_name w =
  (Return tt,
   with_log w (Log ERROR "save_data: failed to write to %s: %s"
                   [PStr file_name; PExc PermissionError])).
Proof.
  intros Hw. unfold save_data, json_dump. unfold_monad. now rewrite Hw.
Qed.

Lemma dict_comprehension_pure (items : list (string * pyval)) (acc : dict Z)
    (w : world) :
  snd (dict_comprehension items acc w) = w.
Proof.
  revert acc. induction items as [|[k v] items IH]; intros acc; [reflexivity|].
  cbn [dict_comprehension]. destruct (py_int v); [reflexivity | apply IH].
Qed.

Lemma load_data_keeps_world (w : world) (file_name : string) :
  stock_data (snd (load_data file_name w)) = stock_data w /\
  files (snd (load_data file_name w)) = files w.
Proof.
  unfold load_data, json_load. unfold_monad.
  destruct (files w file_name) as [| |[| |j]]; try (now cbn).
  destruct (decode j) as [| | | | | |d|]; try (now cbn).
  pose proof (dict_comprehension_pure d empty w) as Hpure.
  destruct (dict_comprehension d empty w) as [[d'|e] w'];
    cbn [snd] in Hpure; subst w'; [now cbn|].
  destruct e; now cbn.
Qed.

Lemma save_data_keeps_stock (w : world) (file_name : string) :
  stock_data (snd (save_data file_name w)) = stock_data w.
Proof.
  destruct (files w file_name) eqn:F.
  - rewrite save_data_writes by congruence. reflexivity.
  - rewrite save_data_fails by assumption. reflexivity.
  - rewrite save_data_writes by congruence. reflexivity.
Qed.

Lemma for_each_logging_keeps (A : Type) (l : list A) (f : A -> record)
    (w : world) :
  stock_data (snd (for_each l (fun a => logging (lvl (f a)) (fmt (f a)) (args (f a))) w))
  = stock_data w /\
  files (snd (for_each l (fun a => logging (lvl (f a)) (fmt (f a)) (args (f a))) w))
  = files w.
Proof.
  revert w. induction l as [|a l IH]; intros w; cbn [for_each]; [now cbn|].
  unfold bind. unfold logging at 1 3. cbv beta iota.
  match goal with
  | |- context [for_each l _ ?w'] => destruct (IH w') as [H1 H2]
  end.
  rewrite H1, H2. now cbn.
Qed.

Lemma print_data_keeps_world (w : world) :
  stock_data (snd (print_data w)) = stock_data w /\
  files (snd (print_data w)) = files w.
Proof.
  unfold print_data. unfold_monad.
  destruct (for_each_logging_keeps _ (stock_data w)
              (fun kv => Log INFO "%s -> %d" [PStr (fst kv); PInt (snd kv)])
              (with_log w (Log INFO "Items Report" []))) as [H1 H2].
  cbn [lvl fmt args] in H1, H2. unfold logging in *.
  now rewrite H1, H2.
Qed.

Lemma isinstance_str_value v : isinstance_str v = false <-> str_value v = None.
Proof. destruct v; simpl; split; congruence. Qed.

Lemma isinstance_int_value v : isinstance_int v = false <-> int_value v = None.
Proof. destruct v; simpl; split; congruence. Qed.

(** ** remove_item *)

(** C4: [remove_item(item, qty)] with a text item and an integer quantity
    leaves the mapping alone when the item is absent; otherwise it lowers
    the stored quantity by [qty], deleting the item when the result is zero
    or less (however far below) and storing the result when it is above
    zero.  In particular a present item with quantity [q] is absent after
    removing any [qty >= q].  No other item is touched and nothing is
    raised. *)
Theorem remove_item_by_cases (w : world) (name : string) (qty : pyval) (n : Z) :
  int_value qty = Some n ->
  let r := remove_item (PStr name) qty w in
  let d := stock_data w in
  let d' := stock_data (snd r) in
  fst r = Return tt /\
  (forall k, k <> name -> get d' k = get d k) /\
  match get d name with
  | None => d' = d
  | Some q =>
      (q - n <= 0 -> get d' name = None /\ d' = del d name) /\
      (0 < q - n -> get d' name = Some (q - n) /\ d' = set d name (q - n)) /\
      (q <= n -> contains d' name = false)
  end.
Proof.
  intros Hi r d d'. subst r d d'.
  destruct (get (stock_data w) name) as [q|] eqn:G.
  - destruct (Z_le_gt_dec (q - n) 0) as [Hle|Hgt].
    + rewrite (remove_item_deletes w (PStr name) qty name n q) by auto.
      cbn [fst snd stock_data with_log with_stock].
      split; [reflexivity|]. split.
      * intros k Hk. now apply get_del_other.
      * split; [|split].
        -- intros _. split; [apply get_del_same | reflexivity].
        -- lia.
        -- intros _. unfold contains. now rewrite get_del_same.
    + rewrite (remove_item_decreases w (PStr name) qty name n q)
        by (auto; lia).
      cbn [fst snd stock_data with_log with_stock].
      split; [reflexivity|]. split.
      * intros k Hk. now apply get_set_other.
      * split; [|split].
        -- lia.
        -- intros _. split; [apply get_set_same | reflexivity].
        -- lia.
  - rewrite (remove_item_absent w (PStr name) qty name n) by auto.
    cbn [fst snd stock_data with_log with_stock]. auto.
Qed.

(** ** add_item *)

Lemma add_items_run (name : string) (qs : list Z) (w : world) :
  fst (add_items name qs w) = Return tt /\
  get_default (stock_data (snd (add_items name qs w))) name 0
  = get_default (stock_data w) name 0 + sum qs.
Proof.
  revert w. induction qs as [|q qs IH]; intros w; cbn [add_items].
  - split; [reflexivity | cbn; lia].
  - change (sum (q :: qs)) with (q + sum qs). unfold bind.
    rewrite (add_item_accepts w (PStr name) (PInt q) None name q) by reflexivity.
    cbv zeta. destruct (IH (with_log
      (with_stock w (set (stock_data w) name (get_default (stock_data w) name 0 + q)))
      (Log INFO "Added %d of %s. New qty: %d"
           [PInt q; PStr name; PInt (get_default (stock_data w) name 0 + q)])))
      as [IH1 IH2].
    split; [exact IH1|]. rewrite IH2.
    cbn [stock_data with_log with_stock]. unfold get_default at 1.
    rewrite get_set_same. lia.
Qed.

(** C5: [add_item(item, qty)] with a text item and an integer quantity
    stores under [item] the value held before (0 when the item was absent)
    plus [qty], and touches no other item; after a run of [add_item] calls
    on one item the quantity is what it was before plus the sum of the
    quantities added, so from an empty inventory it is their sum. *)
Theorem add_item_accumulates (w : world) (name : string) (qty : pyval) (n : Z)
    (logs : option (list string)) (qs : list Z)
    (fs : string -> node) (clock : string) :
  int_value qty = Some n ->
  let d := stock_data w in
  let d1 := stock_data (snd (add_item (PStr name) qty logs w)) in
  let w2 := snd (add_items name qs w) in
  get d1 name = Some (get_default d name 0 + n) /\
  (forall k, k <> name -> get d1 k = get d k) /\
  fst (get_qty (PStr name) w2) = Return (get_default d name 0 + sum qs) /\
  fst (get_qty (PStr name) (snd (add_items name qs (initial fs clock))))
  = Return (sum qs).
Proof.
  intros Hi d d1 w2. subst d d1 w2.
  rewrite (add_item_accepts w (PStr name) qty logs name n) by auto.
  cbn [fst snd stock_data with_log with_stock].
  split; [apply get_set_same|]. split.
  - intros k Hk. now apply get_set_other.
  - rewrite !(get_qty_accepts _ (PStr name) name) by reflexivity.
    cbn [fst]. split; f_equal.
    + apply add_items_run.
    + now rewrite (proj2 (add_items_run name qs (initial fs clock))).
Qed.

(** C10: [add_item(item, qty)] with a text item and an integer quantity
    leaves [item] present, also when [qty] or the stored result is zero or
    negative; no call of [add_item], whatever its arguments, takes a key out
    of the mapping, and neither do [get_qty], [check_low_items],
    [save_data], [load_data] and [print_data], which leave it as it was. *)
Theorem add_item_never_prunes (w : world) (name : string) (qty : pyval) (n : Z)
    (logs : option (list string)) :
  int_value qty = Some n ->
  let d := stock_data w in
  let d' := stock_data (snd (add_item (PStr name) qty logs w)) in
  contains d' name = true /\
  get d' name = Some (get_default d name 0 + n) /\
  (forall item' qty' logs' k,
      contains d k = true ->
      contains (stock_data (snd (add_item item' qty' logs' w))) k = true) /\
  (forall item', stock_data (snd (get_qty item' w)) = d) /\
  (forall threshold, stock_data (snd (check_low_items threshold w)) = d) /\
  (forall file_name, stock_data (snd (save_data file_name w)) = d) /\
  (forall file_name, stock_data (snd (load_data file_name w)) = d) /\
  stock_data (snd (print_data w)) = d.
Proof.
  intros Hi d d'. subst d d'.
  rewrite (add_item_accepts w (PStr name) qty logs name n) by auto.
  cbn [fst snd stock_data with_log with_stock].
  split; [unfold contains; now rewrite get_set_same|].
  split; [apply get_set_same|].
  split; [|split; [|split; [|split; [apply save_data_keeps_stock|
    split; [intros f; apply load_data_keeps_world
           | apply print_data_keeps_world]]]]].
  - intros item' qty' logs' k Hk.
    destruct (str_value item') as [name'|] eqn:Hs.
    + destruct (int_value qty') as [n'|] eqn:Hi'.
      * rewrite (add_item_accepts w item' qty' logs' name' n') by auto.
        cbn [fst snd stock_data with_log with_stock].
        destruct (String.eqb name' k) eqn:E.
        -- apply String.eqb_eq in E. subst k. unfold contains.
           now rewrite get_set_same.
        -- apply String.eqb_neq in E. unfold contains in *.
           now rewrite get_set_other.
      * now rewrite (add_item_rejects_qty w item' qty' logs' name').
    + now rewrite add_item_rejects_item.
  - intros item'. destruct (str_value item') as [name'|] eqn:Hs.
    + now rewrite (get_qty_accepts w item' name').
    + now rewrite get_qty_rejects.
  - intros t. destruct (int_value t) as [t'|] eqn:Ht.
    + now rewrite (check_low_items_accepts w t t').
    + now rewrite check_low_items_rejects.
Qed.

(** ** Calls rejected by a type guard *)


(** ** check_low_items *)



(** ** The quantities stored *)

Lemma stock_positive_get (d : dict Z) (k : string) (q : Z) :
  stock_positive d = true -> get d k = Some q -> 0 < q.
Proof.
  intros Hp G. apply get_in in G. unfold stock_positive in Hp.
  rewrite forallb_forall in Hp. apply Hp in G. now apply Z.ltb_lt in G.
Qed.

Lemma stock_positive_set (d : dict Z) (k : string) (v : Z) :
  stock_positive d = true -> 0 < v -> stock_positive (set d k v) = true.
Proof.
  unfold stock_positive. intros Hp Hv.
  induction d as [|[k' v'] d IH]; cbn [set forallb snd] in *.
  - apply Z.ltb_lt in Hv. now rewrite Hv.
  - apply andb_true_iff in Hp as [Hv' Hp].
    destruct (String.eqb k k'); cbn [forallb snd].
    + apply Z.ltb_lt in Hv. now rewrite Hv.
    + now rewrite Hv', IH.
Qed.

Lemma stock_positive_del (d : dict Z) (k : string) :
  stock_positive d = true -> stock_positive (del d k) = true.
Proof.
  unfold stock_positive, del. intros Hp.
  rewrite forallb_forall in *. intros kv Hkv.
  apply filter_In in Hkv as [Hkv _]. now apply Hp.
Qed.

Lemma run_call_keeps_positive (c : call) (w : world) :
  stock_positive (stock_data w) = true -> adds_positive c = true ->
  exists v, fst (run_call c w) = Return v /\
            stock_positive (stock_data (snd (run_call c w))) = true.
Proof.
  intros Hp Hadd.
  destruct c as [item qty logs|item qty|item|threshold];
    cbn [run_call adds_positive] in *; unfold bind.
  - destruct (str_value item) as [name|] eqn:Hs.
    + destruct (int_value qty) as [n|] eqn:Hi.
      * rewrite (add_item_accepts w item qty logs name n) by auto.
        cbn [fst snd stock_data with_log with_stock ret]. eexists.
        split; [reflexivity|]. apply stock_positive_set; auto.
        apply Z.ltb_lt in Hadd. unfold get_default.
        destruct (get (stock_data w) name) as [q|] eqn:G; [|lia].
        apply (stock_positive_get _ _ _ Hp) in G. lia.
      * rewrite (add_item_rejects_qty w item qty logs name) by auto.
        cbn. eauto.
    + rewrite add_item_rejects_item by auto. cbn. eauto.
  - destruct (str_value item) as [name|] eqn:Hs.
    + destruct (int_value qty) as [n|] eqn:Hi.
      * destruct (get (stock_data w) name) as [q|] eqn:G.
        -- destruct (Z_le_gt_dec (q - n) 0) as [Hle|Hgt].
           ++ rewrite (remove_item_deletes w item qty name n q) by auto.
              cbn [fst snd stock_data with_log with_stock ret]. eexists.
              split; [reflexivity|]. now apply stock_positive_del.
           ++ rewrite (remove_item_decreases w item qty name n q)
                by (auto; lia).
              cbn [fst snd stock_data with_log with_stock ret]. eexists.
              split; [reflexivity|]. apply stock_positive_set; auto. lia.
        -- rewrite (remove_item_absent w item qty name n) by auto.
           cbn. eauto.
      * rewrite (remove_item_rejects_qty w item qty name) by auto.
        cbn. eauto.
    + rewrite remove_item_rejects_item by auto. cbn. eauto.
  - destruct (str_value item) as [name|] eqn:Hs.
    + rewrite (get_qty_accepts w item name) by auto. cbn. eauto.
    + rewrite get_qty_rejects by auto. cbn. eauto.
  - destruct (int_value threshold) as [t|] eqn:Ht.
    + rewrite (check_low_items_accepts w threshold t) by auto. cbn. eauto.
    + rewrite check_low_items_rejects by auto. cbn. eauto.
Qed.

(** C1, as the code has it: [add_item] stores whatever sum it computes, so
    the invariant needs every accepted [add_item] to add a quantity above
    zero.  Under that condition, from a mapping whose quantities are all
    above zero (the empty one at start-up is one), any sequence of
    [add_item], [remove_item], [get_qty] and [check_low_items] calls, with
    any arguments, raises nothing and leaves every stored quantity above
    zero; and whatever the state, the item an accepted [remove_item] was
    called on is afterwards absent or stored with a quantity above zero. *)
Theorem stock_positive_invariant (cs : list call) (w : world) :
  stock_positive (stock_data w) = true ->
  forallb adds_positive cs = true ->
  let w' := snd (run_calls cs w) in
  fst (run_calls cs w) = Return tt /\
  stock_positive (stock_data w') = true /\
  (forall item q, get (stock_data w') item = Some q -> 0 < q) /\
  (forall w0 name n q,
      get (stock_data (snd (remove_item (PStr name) (PInt n) w0))) name = Some q ->
      0 < q).
Proof.
  intros Hp Hcs w'. subst w'.
  assert (Hrun : fst (run_calls cs w) = Return tt /\
                 stock_positive (stock_data (snd (run_calls cs w))) = true).
  { revert w Hp. induction cs as [|c cs IH]; intros w Hp; cbn [run_calls].
    - now cbn.
    - cbn [forallb] in Hcs. apply andb_true_iff in Hcs as [Hc Hcs].
      destruct (run_call_keeps_positive c w Hp Hc) as [v [Hr Hp']].
      unfold bind. destruct (run_call c w) as [[v'|e] w1];
        cbn [fst snd] in *; [|discriminate].
      now apply IH. }
  destruct Hrun as [Hr Hp']. split; [exact Hr|]. split; [exact Hp'|]. split.
  - intros item q. now apply stock_positive_get.
  - intros w0 name n q.
    destruct (get (stock_data w0) name) as [q0|] eqn:G.
    + destruct (Z_le_gt_dec (q0 - n) 0) as [Hle|Hgt].
      * rewrite (remove_item_deletes w0 (PStr name) (PInt n) name n q0) by auto.
        cbn [fst snd stock_data with_log with_stock].
        rewrite get_del_same. discriminate.
      * rewrite (remove_item_decreases w0 (PStr name) (PInt n) name n q0)
          by (auto; lia).
        cbn [fst snd stock_data with_log with_stock].
        rewrite get_set_same. intros [= <-]. lia.
    + rewrite (remove_item_absent w0 (PStr name) (PInt n) name n) by auto.
      cbn [fst snd stock_data with_log with_stock]. rewrite G. discriminate.
Qed.

(** C1 fails as stated: [add_item("pear", 0)] on the empty inventory stores
    the item with quantity 0. *)
Lemma add_item_stores_zero :
  get (stock_data (snd (run_calls [AddItem (PStr "pear") (PInt 0) None]
                                  (initial no_files ""))))
      "pear" = Some 0 /\
  ~ (forall cs item q,
        get (stock_data (snd (run_calls cs (initial no_files "")))) item = Some q ->
        0 < q).
Proof.
  split; [reflexivity|]. intros H.
  specialize (H [AddItem (PStr "pear") (PInt 0) None] "pear" 0 eq_refl). lia.
Qed.

(** ** The scenario of [main] *)

(** C2 fails as stated: after the five calls the mapping holds [pear] with
    quantity 0, so it is not [{apple: 7, banana: 2}], and
    [check_low_items(5)] does not return [[banana]]. *)
Lemma scenario_not_as_claimed :
  ~ (dict_eq (stock_data (snd (scenario (initial no_files ""))))
             [("apple", 7); ("banana", 2)] /\
     fst (scenario (initial no_files "")) = Return (7, ["banana"])).
Proof.
  intros [Heq _]. specialize (Heq "pear"). vm_compute in Heq. discriminate.
Qed.

(** C2, as the code has it: the five calls leave
    [{apple: 7, banana: 2, pear: 0}], with [get_qty("apple") = 7] and
    [check_low_items(5) = [banana, pear]]; nothing is raised and no file
    is touched. *)
Theorem scenario_result (fs : string -> node) (clock : string) :
  fst (scenario (initial fs clock)) = Return (7, ["banana"; "pear"]) /\
  stock_data (snd (scenario (initial fs clock)))
  = [("apple", 7); ("banana", 2); ("pear", 0)] /\
  files (snd (scenario (initial fs clock))) = fs.
Proof. repeat split. Qed.

(** [main] on a fresh process with no files: it raises nothing, leaves the
    three items in memory and the same three in [inventory.json]. *)
Example main_result :
  fst (main (initial no_files "")) = Return tt /\
  stock_data (snd (main (initial no_files "")))
  = [("apple", 7); ("banana", 2); ("pear", 0)] /\
  files (snd (main (initial no_files ""))) default_file
  = File (Json (JObject [("apple", JInt 7); ("banana", JInt 2);
                         ("pear", JInt 0)])).
Proof. repeat split. Qed.

(** ** Reachable mappings are dictionaries *)

Lemma run_call_wf (c : call) (w : world) :
  wf (stock_data w) -> wf (stock_data (snd (run_call c w))).
Proof.
  intros Hwf.
  destruct c as [item qty logs|item qty|item|threshold];
    cbn [run_call]; unfold bind.
  - destruct (str_value item) as [name|] eqn:Hs.
    + destruct (int_value qty) as [n|] eqn:Hi.
      * rewrite (add_item_accepts w item qty logs name n) by auto.
        cbn [fst snd stock_data with_log with_stock ret]. now apply wf_set.
      * now rewrite (add_item_rejects_qty w item qty logs name).
    + now rewrite add_item_rejects_item.
  - destruct (str_value item) as [name|] eqn:Hs.
    + destruct (int_value qty) as [n|] eqn:Hi.
      * destruct (get (stock_data w) name) as [q|] eqn:G.
        -- destruct (Z_le_gt_dec (q - n) 0) as [Hle|Hgt].
           ++ rewrite (remove_item_deletes w item qty name n q) by auto.
              cbn [fst snd stock_data with_log with_stock ret].
              now apply wf_del.
           ++ rewrite (remove_item_decreases w item qty name n q)
                by (auto; lia).
              cbn [fst snd stock_data with_log with_stock ret].
              now apply wf_set.
        -- now rewrite (remove_item_absent w item qty name n).
      * now rewrite (remove_item_rejects_qty w item qty name).
    + now rewrite remove_item_rejects_item.
  - destruct (str_value item) as [name|] eqn:Hs.
    + now rewrite (get_qty_accepts w item name).
    + now rewrite get_qty_rejects.
  - destruct (int_value threshold) as [t|] eqn:Ht.
    + now rewrite (check_low_items_accepts w threshold t).
    + now rewrite check_low_items_rejects.
Qed.

Lemma run_calls_wf (cs : list call) (w : world) :
  wf (stock_data w) -> wf (stock_data (snd (run_calls cs w))).
Proof.
  revert w. induction cs as [|c cs IH]; intros w Hwf; cbn [run_calls].
  - exact Hwf.
  - unfold bind. pose proof (run_call_wf c w Hwf) as Hc.
    destruct (run_call c w) as [[v|e] w1]; cbn [snd] in *; auto.
Qed.

Lemma reachable_wf (cs : list call) (fs : string -> node) (clock : string) :
  wf (stock_data (snd (run_calls cs (initial fs clock)))).
Proof. apply run_calls_wf. constructor. Qed.

(** ** save_data and load_data *)





(** C9: [load_data] coerces each value of a JSON object with [int] (a
    finite float is truncated, a numeric string is parsed) and returns the
    empty mapping when a value makes [int] raise [ValueError]; but a value
    that makes [int] raise [TypeError] ([null], an array, an object) or
    [OverflowError] (an infinite float) is not caught: [load_data] raises
    instead of returning the empty mapping. *)
Theorem load_data_null_value_raises :
  fst (load_data default_file
         (holding (JObject [("apple", JInt 7); ("pear", JNull)])))
  = Raise TypeError /\
  fst (load_data default_file
         (holding (JObject [("apple", JInt 7); ("pear", JArray [])])))
  = Raise TypeError /\
  fst (load_data default_file
         (holding (JObject [("apple", JInt 7); ("pear", JFloat (FInf false))])))
  = Raise OverflowError /\
  fst (load_data default_file
         (holding (JObject [("apple", JInt 7); ("pear", JString "many")])))
  = Return empty /\
  fst (load_data default_file
         (holding (JObject [("apple", JFloat (FFinite 11 (-2)));
                            ("pear", JString "12")])))
  = Return [("apple", 2); ("pear", 12)].
Proof. repeat split. Qed.

(** ** Instances *)

Lemma stock_positive_invariant_witness :
  stock_positive (stock_data (initial no_files "")) = true /\
  forallb adds_positive sample_calls = true /\
  fst (run_calls sample_calls (initial no_files "")) = Return tt /\
  stock_positive (stock_data (snd (run_calls sample_calls (initial no_files ""))))
  = true.
Proof.
  split; [reflexivity|]. split; [reflexivity|].
  destruct (stock_positive_invariant sample_calls (initial no_files ""))
    as [H1 [H2 _]]; [reflexivity | reflexivity | exact (conj H1 H2)].
Defined.


Lemma remove_item_by_cases_witness :
  int_value (PInt 12) = Some 12 /\
  contains (stock_data (snd (remove_item (PStr "apple") (PInt 12) sample_world)))
           "apple" = false.
Proof.
  split; [reflexivity|].
  pose proof (remove_item_by_cases sample_world "apple" (PInt 12) 12 eq_refl)
    as H.
  cbv zeta in H. destruct H as [_ [_ H]].
  change (get (stock_data sample_world) "apple") with (Some 7) in H.
  destruct H as [_ [_ H]]. apply H. lia.
Defined.

Lemma add_item_accumulates_witness :
  int_value (PBool true) = Some 1 /\
  get (stock_data (snd (add_item (PStr "apple") (PBool true) None sample_world)))
      "apple" = Some 8 /\
  fst (get_qty (PStr "kiwi")
         (snd (add_items "kiwi" [4; -1; 0; 2] (initial no_files ""))))
  = Return 5.
Proof.
  split; [reflexivity|].
  destruct (add_item_accumulates sample_world "apple" (PBool true) 1 None []
              no_files "" eq_refl) as [H1 _].
  destruct (add_item_accumulates sample_world "kiwi" (PInt 0) 0 None
              [4; -1; 0; 2] no_files "" eq_refl) as [_ [_ [_ H2]]].
  split; [exact H1 | exact H2].
Defined.

Lemma add_item_never_prunes_witness :
  int_value (PInt (-9)) = Some (-9) /\
  get (stock_data (snd (add_item (PStr "apple") (PInt (-9)) None sample_world)))
      "apple" = Some (-2).
Proof.
  split; [reflexivity|].
  destruct (add_item_never_prunes sample_world "apple" (PInt (-9)) (-9) None
              eq_refl) as [_ [H _]].
  exact H.
Defined.



(** * Further properties of the module *)

(** ** Dictionaries, continued *)

Section DictFactsMore.
Context {V : Type}.
Implicit Types (d : dict V) (k : string) (v : V).



Lemma set_set d k v v' : set (set d k v) k v' = set d k v'.
Proof.
  induction d as [|[k0 v0] d IH]; cbn [set].
  - now rewrite String.eqb_refl.
  - destruct (String.eqb k k0) eqn:E; cbn [set]; rewrite E; auto.
    now rewrite IH.
Qed.


End DictFactsMore.

(** ** Adding and removing, composed *)


(** X2: when an item survives a first [remove_item(item, a)], removing [b]
    more leaves the same mapping as a single [remove_item(item, a + b)]
    would have. *)
Theorem remove_item_twice (w : world) (name : string) (a b q : Z) :
  get (stock_data w) name = Some q ->
  0 < q - a ->
  stock_data (snd (remove_item (PStr name) (PInt b)
                     (snd (remove_item (PStr name) (PInt a) w))))
  = stock_data (snd (remove_item (PStr name) (PInt (a + b)) w)).
Proof.
  intros G Ha.
  rewrite (remove_item_decreases w (PStr name) (PInt a) name a q) by auto.
  cbn [snd]. set (w1 := with_log _ _).
  assert (G1 : get (stock_data w1) name = Some (q - a))
    by (subst w1; cbn [stock_data with_log with_stock]; apply get_set_same).
  assert (S1 : stock_data w1 = set (stock_data w) name (q - a)) by reflexivity.
  destruct (Z_le_gt_dec (q - a - b) 0) as [Hle|Hgt].
  - rewrite (remove_item_deletes w1 (PStr name) (PInt b) name b (q - a))
      by auto.
    rewrite (remove_item_deletes w (PStr name) (PInt (a + b)) name (a + b) q)
      by (auto; lia).
    cbn [snd stock_data with_log with_stock]. now rewrite S1, del_set.
  - rewrite (remove_item_decreases w1 (PStr name) (PInt b) name b (q - a))
      by (auto; lia).
    rewrite (remove_item_decreases w (PStr name) (PInt (a + b)) name (a + b) q)
      by (auto; lia).
    cbn [snd stock_data with_log with_stock]. rewrite S1, set_set.
    f_equal. lia.
Qed.

Lemma remove_item_twice_witness :
  get (stock_data sample_world) "apple" = Some 7 /\
  0 < 7 - 2 /\
  stock_data (snd (remove_item (PStr "apple") (PInt 9)
                     (snd (remove_item (PStr "apple") (PInt 2) sample_world))))
  = stock_data (snd (remove_item (PStr "apple") (PInt (2 + 9)) sample_world)).
Proof.
  split; [reflexivity|]. split; [reflexivity|].
  apply (remove_item_twice sample_world "apple" 2 9 7); reflexivity.
Defined.

(** X3: the quantities two [add_item] calls leave do not depend on the
    order of the calls: both orders give mappings with the same entries
    (mappings that compare equal in Python), whether the items are the same
    or not. *)
Theorem add_item_order_irrelevant (w : world) (a b : string) (n m : Z) :
  dict_eq
    (stock_data (snd (add_item (PStr b) (PInt m) None
                        (snd (add_item (PStr a) (PInt n) None w)))))
    (stock_data (snd (add_item (PStr a) (PInt n) None
                        (snd (add_item (PStr b) (PInt m) None w))))).
Proof.
  rewrite (add_item_accepts w (PStr a) (PInt n) None a n) by reflexivity.
  rewrite (add_item_accepts w (PStr b) (PInt m) None b m) by reflexivity.
  cbn [snd].
  rewrite (add_item_accepts _ (PStr b) (PInt m) None b m) by reflexivity.
  rewrite (add_item_accepts _ (PStr a) (PInt n) None a n) by reflexivity.
  cbn [snd stock_data with_log with_stock]. unfold get_default.
  intros k. destruct (String.eqb a b) eqn:E.
  - apply String.eqb_eq in E. subst b. rewrite !get_set_same, !set_set.
    destruct (String.eqb a k) eqn:Ek.
    + apply String.eqb_eq in Ek. subst k. rewrite !get_set_same.
      f_equal. destruct (get (stock_data w) a); lia.
    + apply String.eqb_neq in Ek. now rewrite !get_set_other.
  - apply String.eqb_neq in E.
    rewrite (get_set_other _ a b) by assumption.
    rewrite (get_set_other _ b a) by congruence.
    destruct (String.eqb a k) eqn:Eak.
    + apply String.eqb_eq in Eak. subst k.
      rewrite (get_set_other _ b a) by congruence.
      now rewrite !get_set_same.
    + apply String.eqb_neq in Eak. destruct (String.eqb b k) eqn:Ebk.
      * apply String.eqb_eq in Ebk. subst k.
        rewrite get_set_same, (get_set_other _ a b) by assumption.
        now rewrite get_set_same.
      * apply String.eqb_neq in Ebk. now rewrite !get_set_other.
Qed.

(** ** What a call raises and logs *)

Lemma isinstance_str_true (v : pyval) (s : string) :
  str_value v = Some s -> isinstance_str v = true.
Proof. destruct v; simpl; congruence. Qed.

Lemma isinstance_int_true (v : pyval) (n : Z) :
  int_value v = Some n -> isinstance_int v = true.
Proof. destruct v; simpl; congruence. Qed.

Lemma run_call_effect (c : call) (w : world) :
  exists v rs,
    fst (run_call c w) = Return v /\
    log (snd (run_call c w)) = (log w ++ rs)%list /\
    (List.length rs <= 1)%nat /\
    map is_error rs = (if ill_typed c then [true] else map (fun _ => false) rs) /\
    Forall (fun r => fmt r <> "Unexpected KeyError while removing item: %s") rs.
Proof.
  destruct c as [item qty logs|item qty|item|threshold];
    cbn [run_call ill_typed]; unfold bind.
  - destruct (str_value item) as [name|] eqn:Hs.
    + rewrite (isinstance_str_true _ _ Hs).
      destruct (int_value qty) as [n|] eqn:Hi.
      * rewrite (isinstance_int_true _ _ Hi).
        rewrite (add_item_accepts w item qty logs name n) by auto.
        cbn. eexists _, [_]. repeat split; auto.
        repeat constructor. cbn. discriminate.
      * apply isinstance_int_value in Hi as Hi'. rewrite Hi'.
        rewrite (add_item_rejects_qty w item qty logs name) by auto.
        cbn. eexists _, [_]. repeat split; auto.
        repeat constructor. cbn. discriminate.
    + apply isinstance_str_value in Hs as Hs'. rewrite Hs'.
      rewrite add_item_rejects_item by auto.
      cbn. eexists _, [_]. repeat split; auto.
      repeat constructor. cbn. discriminate.
  - destruct (str_value item) as [name|] eqn:Hs.
    + rewrite (isinstance_str_true _ _ Hs).
      destruct (int_value qty) as [n|] eqn:Hi.
      * rewrite (isinstance_int_true _ _ Hi).
        destruct (get (stock_data w) name) as [q|] eqn:G.
        -- destruct (Z_le_gt_dec (q - n) 0) as [Hle|Hgt].
           ++ rewrite (remove_item_deletes w item qty name n q) by auto.
              cbn. eexists _, [_]. repeat split; auto.
              repeat constructor. cbn. discriminate.
           ++ rewrite (remove_item_decreases w item qty name n q)
                by (auto; lia).
              cbn. eexists _, [_]. repeat split; auto.
              repeat constructor. cbn. discriminate.
        -- rewrite (remove_item_absent w item qty name n) by auto.
           cbn. eexists _, [_]. repeat split; auto.
           repeat constructor. cbn. discriminate.
      * apply isinstance_int_value in Hi as Hi'. rewrite Hi'.
        rewrite (remove_item_rejects_qty w item qty name) by auto.
        cbn. eexists _, [_]. repeat split; auto.
        repeat constructor. cbn. discriminate.
    + apply isinstance_str_value in Hs as Hs'. rewrite Hs'.
      rewrite remove_item_rejects_item by auto.
      cbn. eexists _, [_]. repeat split; auto.
      repeat constructor. cbn. discriminate.
  - destruct (str_value item) as [name|] eqn:Hs.
    + rewrite (isinstance_str_true _ _ Hs).
      rewrite (get_qty_accepts w item name) by auto.
      cbn. eexists _, []. rewrite app_nil_r. repeat split; auto.
    + apply isinstance_str_value in Hs as Hs'. rewrite Hs'.
      rewrite get_qty_rejects by auto.
      cbn. eexists _, [_]. repeat split; auto.
      repeat constructor. cbn. discriminate.
  - destruct (int_value threshold) as [t|] eqn:Ht.
    + rewrite (isinstance_int_true _ _ Ht).
      rewrite (check_low_items_accepts w threshold t) by auto.
      cbn. eexists _, []. rewrite app_nil_r. repeat split; auto.
    + apply isinstance_int_value in Ht as Ht'. rewrite Ht'.
      rewrite check_low_items_rejects by auto.
      cbn. eexists _, [_]. repeat split; auto.
      repeat constructor. cbn. discriminate.
Qed.

Lemma for_each_logging_returns (A : Type) (l : list A) (f : A -> record)
    (w : world) :
  for_each l (fun a => logging (lvl (f a)) (fmt (f a)) (args (f a))) w
  = (Return tt, World (stock_data w) (files w) (log w ++ map f l) (now w)).
Proof.
  revert w. induction l as [|a l IH]; intros w; cbn [for_each map].
  - rewrite app_nil_r. now destruct w.
  - unfold bind. unfold logging at 1. cbv beta iota. rewrite IH.
    cbn [stock_data files log now with_log]. rewrite <- app_assoc.
    now destruct (f a).
Qed.

Lemma print_data_run (w : world) :
  print_data w
  = (Return tt,
     World (stock_data w) (files w) (log w ++ items_report (stock_data w))
           (now w)).
Proof.
  unfold print_data. unfold_monad.
  rewrite (for_each_logging_returns _ (stock_data w)
             (fun kv => Log INFO "%s -> %d" [PStr (fst kv); PInt (snd kv)])).
  cbn [stock_data files log now with_log]. unfold items_report.
  now rewrite <- app_assoc.
Qed.



Lemma filter_all_false (A : Type) (f : A -> bool) (l : list A) :
  map f l = map (fun _ => false) l -> filter f l = [].
Proof.
  induction l as [|a l IH]; cbn [map filter]; auto.
  intros [= Ha Hl]. rewrite Ha. auto.
Qed.

(** X5: a sequence of calls logs at level [ERROR] once for each call that
    a type guard rejects and never otherwise; each call logs at most one
    record, and the [KeyError] handler of [remove_item] never logs: the
    lookups it guards cannot fail. *)
Theorem errors_logged_for_rejected_calls (cs : list call) (w : world) :
  exists rs,
    log (snd (run_calls cs w)) = (log w ++ rs)%list /\
    List.length (filter is_error rs) = List.length (filter ill_typed cs) /\
    (List.length rs <= List.length cs)%nat /\
    Forall (fun r => fmt r <> "Unexpected KeyError while removing item: %s") rs.
Proof.
  revert w. induction cs as [|c cs IH]; intros w; cbn [run_calls].
  - exists []. cbn. rewrite app_nil_r. repeat split; auto.
  - unfold bind.
    destruct (run_call_effect c w) as [v [rs [Hr [Hl [Hn [He Hk]]]]]].
    destruct (run_call c w) as [[v'|e] w1]; cbn [fst snd] in *;
      [|discriminate].
    destruct (IH w1) as [rs' [Hl' [Hc' [Hn' Hk']]]].
    exists (rs ++ rs')%list. rewrite Hl', Hl, <- app_assoc.
    split; [reflexivity|]. rewrite filter_app, !length_app. cbn [filter].
    split; [|split].
    + rewrite Hc'. destruct (ill_typed c); cbn [List.length].
      * destruct rs as [|r [|r' rs]]; try discriminate.
        cbn [map] in He. injection He as He. cbn [filter]. now rewrite He.
      * now rewrite (filter_all_false _ _ _ He).
    + cbn [List.length]. lia.
    + apply Forall_app. now split.
Qed.

(** ** Quantities below zero *)

Lemma stock_nonneg_get (d : dict Z) (k : string) (q : Z) :
  stock_nonneg d = true -> get d k = Some q -> 0 <= q.
Proof.
  intros Hp G. apply get_in in G. unfold stock_nonneg in Hp.
  rewrite forallb_forall in Hp. apply Hp in G. now apply Z.leb_le in G.
Qed.

Lemma stock_nonneg_set (d : dict Z) (k : string) (v : Z) :
  stock_nonneg d = true -> 0 <= v -> stock_nonneg (set d k v) = true.
Proof.
  unfold stock_nonneg. intros Hp Hv.
  induction d as [|[k' v'] d IH]; cbn [set forallb snd] in *.
  - apply Z.leb_le in Hv. now rewrite Hv.
  - apply andb_true_iff in Hp as [Hv' Hp].
    destruct (String.eqb k k'); cbn [forallb snd].
    + apply Z.leb_le in Hv. now rewrite Hv.
    + now rewrite Hv', IH.
Qed.

Lemma stock_nonneg_del (d : dict Z) (k : string) :
  stock_nonneg d = true -> stock_nonneg (del d k) = true.
Proof.
  unfold stock_nonneg, del. intros Hp.
  rewrite forallb_forall in *. intros kv Hkv.
  apply filter_In in Hkv as [Hkv _]. now apply Hp.
Qed.

Lemma run_call_keeps_nonneg (c : call) (w : world) :
  stock_nonneg (stock_data w) = true -> adds_nonneg c = true ->
  stock_nonneg (stock_data (snd (run_call c w))) = true.
Proof.
  intros Hp Hadd.
  destruct c as [item qty logs|item qty|item|threshold];
    cbn [run_call adds_nonneg] in *; unfold bind.
  - destruct (str_value item) as [name|] eqn:Hs.
    + destruct (int_value qty) as [n|] eqn:Hi.
      * rewrite (add_item_accepts w item qty logs name n) by auto.
        cbn [fst snd stock_data with_log with_stock ret].
        apply stock_nonneg_set; auto.
        apply Z.leb_le in Hadd. unfold get_default.
        destruct (get (stock_data w) name) as [q|] eqn:G; [|lia].
        apply (stock_nonneg_get _ _ _ Hp) in G. lia.
      * now rewrite (add_item_rejects_qty w item qty logs name).
    + now rewrite add_item_rejects_item.
  - destruct (str_value item) as [name|] eqn:Hs.
    + destruct (int_value qty) as [n|] eqn:Hi.
      * destruct (get (stock_data w) name) as [q|] eqn:G.
        -- destruct (Z_le_gt_dec (q - n) 0) as [Hle|Hgt].
           ++ rewrite (remove_item_deletes w item qty name n q) by auto.
              cbn [fst snd stock_data with_log with_stock ret].
              now apply stock_nonneg_del.
           ++ rewrite (remove_item_decreases w item qty name n q)
                by (auto; lia).
              cbn [fst snd stock_data with_log with_stock ret].
              apply stock_nonneg_set; auto. lia.
        -- now rewrite (remove_item_absent w item qty name n).
      * now rewrite (remove_item_rejects_qty w item qty name).
    + now rewrite remove_item_rejects_item.
  - destruct (str_value item) as [name|] eqn:Hs.
    + now rewrite (get_qty_accepts w item name).
    + now rewrite get_qty_rejects.
  - destruct (int_value threshold) as [t|] eqn:Ht.
    + now rewrite (check_low_items_accepts w threshold t).
    + now rewrite check_low_items_rejects.
Qed.

(** X6: when [add_item] is used as its docstring says, with quantities of
    zero or more, no item is ever stored with a quantity below zero: from
    a mapping without negative quantities (the empty one at start-up is
    one), any sequence of calls with any arguments, [remove_item] with any
    quantity included, leaves none, and [get_qty] then never returns a
    number below zero. *)
Theorem stock_never_negative (cs : list call) (w : world) (item : pyval) :
  stock_nonneg (stock_data w) = true ->
  forallb adds_nonneg cs = true ->
  let w' := snd (run_calls cs w) in
  stock_nonneg (stock_data w') = true /\
  exists q, fst (get_qty item w') = Return q /\ 0 <= q.
Proof.
  intros Hp Hcs w'. subst w'.
  assert (Hrun : stock_nonneg (stock_data (snd (run_calls cs w))) = true).
  { revert w Hp. induction cs as [|c cs IH]; intros w Hp; cbn [run_calls].
    - exact Hp.
    - cbn [forallb] in Hcs. apply andb_true_iff in Hcs as [Hc Hcs].
      pose proof (run_call_keeps_nonneg c w Hp Hc) as Hp'.
      unfold bind. destruct (run_call c w) as [[v'|e] w1];
        cbn [fst snd] in *; [now apply IH | exact Hp']. }
  split; [exact Hrun|].
  destruct (str_value item) as [name|] eqn:Hs.
  - rewrite (get_qty_accepts _ item name) by assumption. cbn [fst].
    eexists. split; [reflexivity|]. unfold get_default.
    destruct (get _ name) as [q|] eqn:G; [|lia].
    now apply (stock_nonneg_get _ _ _ Hrun) in G.
  - rewrite get_qty_rejects by assumption. cbn [fst].
    eexists. split; [reflexivity | lia].
Qed.

Lemma stock_never_negative_witness :
  stock_nonneg (stock_data sample_world) = true /\
  forallb adds_nonneg
    (RemoveItem (PStr "pear") (PInt (-4)) :: AddItem (PStr "kiwi") (PInt 0) None
     :: sample_calls) = true /\
  stock_nonneg
    (stock_data
       (snd (run_calls
               (RemoveItem (PStr "pear") (PInt (-4))
                :: AddItem (PStr "kiwi") (PInt 0) None :: sample_calls)
               sample_world))) = true.
Proof.
  split; [reflexivity|]. split; [reflexivity|].
  apply (stock_never_negative
           (RemoveItem (PStr "pear") (PInt (-4))
            :: AddItem (PStr "kiwi") (PInt 0) None :: sample_calls)
           sample_world PNone); reflexivity.
Defined.

(** ** load_data on a JSON object *)









(** ** print_data and save_data *)

(** X9: [print_data] logs the line "Items Report" and then one line for
    each stored item, with its name and quantity, in the order of the
    mapping, all at level [INFO]; it logs one line more than there are
    items, raises nothing and changes neither the mapping nor the files. *)
Theorem print_data_reports (w : world) :
  let r := print_data w in
  fst r = Return tt /\
  stock_data (snd r) = stock_data w /\
  files (snd r) = files w /\
  log (snd r) = (log w ++ items_report (stock_data w))%list /\
  List.length (log (snd r))
  = (List.length (log w) + S (List.length (stock_data w)))%nat /\
  existsb is_error (items_report (stock_data w)) = false.
Proof.
  intros r. subst r. rewrite print_data_run.
  cbn [fst snd stock_data files log].
  repeat split.
  - rewrite length_app. unfold items_report. cbn [List.length].
    now rewrite length_map.
  - unfold items_report. cbn [existsb is_error lvl orb].
    induction (stock_data w) as [|kv d IH]; cbn; auto.
Qed.


(** ** The saved file and later calls *)






(** ** main *)



(** ** Queries after updates *)

(** X13: for an item that is stored with quantity [q],
    [get_qty(item)] after [remove_item(item, n)] is [max(0, q - n)]:
    the quantity left, or 0 once the item has been removed. *)
Theorem get_qty_after_remove_item (w : world) (name : string) (n q : Z) :
  get (stock_data w) name = Some q ->
  fst (get_qty (PStr name) (snd (remove_item (PStr name) (PInt n) w)))
  = Return (Z.max 0 (q - n)).
Proof.
  intros G. rewrite (get_qty_accepts _ (PStr name) name) by reflexivity.
  cbn [fst]. f_equal. unfold get_default.
  destruct (Z_le_gt_dec (q - n) 0) as [Hle|Hgt].
  - rewrite (remove_item_deletes w (PStr name) (PInt n) name n q) by auto.
    cbn [snd stock_data with_log with_stock]. rewrite get_del_same. lia.
  - rewrite (remove_item_decreases w (PStr name) (PInt n) name n q)
      by (auto; lia).
    cbn [snd stock_data with_log with_stock]. rewrite get_set_same. lia.
Qed.

Lemma get_qty_after_remove_item_witness :
  get (stock_data sample_world) "banana" = Some 2 /\
  fst (get_qty (PStr "banana")
         (snd (remove_item (PStr "banana") (PInt 5) sample_world)))
  = Return (Z.max 0 (2 - 5)).
Proof.
  split; [reflexivity|].
  apply (get_qty_after_remove_item sample_world "banana" 5 2 eq_refl).
Defined.

(** X14: raising the threshold of [check_low_items] never drops an item:
    every item reported for a threshold is reported for each higher one,
    and the list does not get shorter. *)
Theorem check_low_items_monotone (w : world) (t1 t2 : Z) :
  t1 <= t2 ->
  exists low1 low2,
    fst (check_low_items (PInt t1) w) = Return low1 /\
    fst (check_low_items (PInt t2) w) = Return low2 /\
    incl low1 low2 /\
    (List.length low1 <= List.length low2)%nat.
Proof.
  intros Ht.
  rewrite (check_low_items_accepts w (PInt t1) t1) by reflexivity.
  rewrite (check_low_items_accepts w (PInt t2) t2) by reflexivity.
  cbn [fst]. eexists _, _. split; [reflexivity|]. split; [reflexivity|].
  split.
  - intros k Hk. apply in_map_iff in Hk as [kv [<- Hkv]].
    apply filter_In in Hkv as [Hin Hlt]. apply in_map, filter_In.
    split; [exact Hin|]. apply Z.ltb_lt in Hlt. apply Z.ltb_lt. lia.
  - rewrite !length_map.
    induction (stock_data w) as [|kv d IH]; cbn [filter]; auto.
    destruct (snd kv <? t1) eqn:E1.
    + apply Z.ltb_lt in E1. assert (E2 : (snd kv <? t2) = true)
        by (apply Z.ltb_lt; lia).
      rewrite E2. cbn [List.length]. lia.
    + destruct (snd kv <? t2); cbn [List.length]; lia.
Qed.

Lemma check_low_items_monotone_witness :
  2 <= 8 /\
  incl ["pear"] ["apple"; "banana"; "pear"] /\
  fst (check_low_items (PInt 2) sample_world) = Return ["pear"] /\
  fst (check_low_items (PInt 8) sample_world)
  = Return ["apple"; "banana"; "pear"].
Proof.
  split; [lia|].
  destruct (check_low_items_monotone sample_world 2 8) as [l1 [l2 [H1 [H2 [H _]]]]];
    [lia|].
  injection H1 as <-. injection H2 as <-.
  split; [exact H|]. split; reflexivity.
Defined.
